(** * Compound browser: fetch client, view-state coordinator and App view

    A shallow embedding of

    - [frontend/src/api.ts] (and its second copy, which differs only in the
      base URL): the one-function HTTP client [fetchCompounds];
    - [frontend/src/App.tsx]: the [App] component, read as a function from
      the values returned by the [useCompounds] hook to the element it
      renders;
    - the [useCompounds] hook itself, whose file is not part of the
      available sources and is therefore modelled from the written
      specification (section "View-state coordinator").

    JavaScript objects used as string-keyed maps are [gmap string JsValue];
    numbers that the program only uses as integers (page numbers, counts,
    identifiers) are [Z]; asynchronous code is a small resumption monad
    whose only suspension point is [await axios.get]. *)

From Stdlib Require Import ZArith List Bool.
From stdpp Require Import base gmap strings list fin_maps.
Import ListNotations.
Open Scope Z_scope.

(* ===================================================================== *)
(** ** JavaScript values and objects *)
(* ===================================================================== *)

(** The primitive values that can sit in a query-parameter object. *)
Inductive JsValue : Type :=
| VUndefined
| VNull
| VBool (b : bool)
| VNum (n : Z)
| VStr (s : string).

#[global] Instance JsValue_eq_dec : EqDecision JsValue.
Proof. solve_decision. Defined.

(** A plain object used as a map from property name to value. *)
Abbreviation JsObject := (gmap string JsValue).

(** [{ ...target, ...source }]: every own property of [source] is written
    over [target]; properties of [target] that [source] lacks stay. *)
Definition spread (target source : JsObject) : JsObject := source ∪ target.

(** [Array.prototype.findIndex]: the elements are visited in ascending
    index order starting at [i]; the index of the first one satisfying [p]
    is returned, or [-1] when the end is reached. *)
Fixpoint findIndex_from {A : Type} (p : A -> bool) (l : list A) (i : Z) : Z :=
  match l with
  | [] => -1
  | x :: l' => if p x then i else findIndex_from p l' (i + 1)
  end.

Definition findIndex {A : Type} (p : A -> bool) (l : list A) : Z :=
  findIndex_from p l 0.

(** [arr[i]] for an integer [i]: [undefined] outside [0 .. length-1]. *)
Definition array_get {A : Type} (l : list A) (i : Z) : option A :=
  if i <? 0 then None else l !! Z.to_nat i.

(** [x || d] on a possibly-undefined number: [undefined] and [0] are
    falsy. *)
Definition or_num (x : option Z) (d : Z) : Z :=
  match x with
  | Some n => if n =? 0 then d else n
  | None => d
  end.

(** [x || d] on a possibly-undefined array: every array is truthy. *)
Definition or_array {A : Type} (x : option (list A)) (d : list A) : list A :=
  match x with
  | Some l => l
  | None => d
  end.

(** [o?.f] *)
Definition opt_chain {A B : Type} (o : option A) (f : A -> B) : option B :=
  match o with
  | Some a => Some (f a)
  | None => None
  end.

(* ===================================================================== *)
(** ** Data model ([types.ts] is not among the sources) *)
(* ===================================================================== *)

(** Modelled from the spec: the type declarations of [types.ts] are
    missing.  A compound has the identifier [mol_idx] that the code compares
    with [===], and attribute fields that are opaque here. *)
Record Compound : Type := mkCompound {
  mol_idx : Z;
  attributes : list (string * JsValue)
}.

#[global] Instance Compound_eq_dec : EqDecision Compound.
Proof. solve_decision. Defined.

(** Modelled from the spec: the page envelope of [types.ts], with the four
    fields that [App] reads. *)
Record ApiResponse : Type := mkApiResponse {
  items : list Compound;
  page : Z;
  total_pages : Z;
  total_items : Z
}.

(** Modelled from the spec: [FilterParams] is a mapping from filter name
    to filter value, every field optional. *)
Abbreviation FilterParams := (gmap string JsValue).

(* ===================================================================== *)
(** ** The environment: axios and the console *)
(* ===================================================================== *)

(** What a rejected [axios.get] promise carries: a transport failure, or a
    response whose status is outside 2xx. *)
Inductive JsError : Type :=
| NetworkError (message : string)
| BadStatus (status : Z).

Record AxiosResponse : Type := mkAxiosResponse {
  data_of : ApiResponse;   (* [response.data] *)
  status_of : Z
}.

Inductive AxiosOutcome : Type :=
| Resolved (response : AxiosResponse)
| Rejected (error : JsError).

(** One [console.error(msg, error)] call. *)
Record LogEntry : Type := mkLog { log_msg : string; log_error : JsError }.

(* ===================================================================== *)
(** ** State of the view-state coordinator *)
(* ===================================================================== *)

(** Modelled from the spec: the state owned by the missing [useCompounds]
    hook.  [App] destructures the first four fields. *)
Record CoordState : Type := mkCoord {
  data : option ApiResponse;
  loading : bool;
  selectedCompound : option Compound;
  allFilteredCompounds : list Compound;
  currentFilters : FilterParams;
  currentPageNumber : Z
}.

Definition set_data (d : option ApiResponse) (s : CoordState) : CoordState :=
  mkCoord d (loading s) (selectedCompound s) (allFilteredCompounds s)
          (currentFilters s) (currentPageNumber s).
Definition set_loading (b : bool) (s : CoordState) : CoordState :=
  mkCoord (data s) b (selectedCompound s) (allFilteredCompounds s)
          (currentFilters s) (currentPageNumber s).
Definition set_selectedCompound (c : option Compound) (s : CoordState) : CoordState :=
  mkCoord (data s) (loading s) c (allFilteredCompounds s)
          (currentFilters s) (currentPageNumber s).
Definition set_allFilteredCompounds (l : list Compound) (s : CoordState) : CoordState :=
  mkCoord (data s) (loading s) (selectedCompound s) l
          (currentFilters s) (currentPageNumber s).
Definition set_currentFilters (f : FilterParams) (s : CoordState) : CoordState :=
  mkCoord (data s) (loading s) (selectedCompound s) (allFilteredCompounds s)
          f (currentPageNumber s).
Definition set_currentPageNumber (n : Z) (s : CoordState) : CoordState :=
  mkCoord (data s) (loading s) (selectedCompound s) (allFilteredCompounds s)
          (currentFilters s) n.

(* ===================================================================== *)
(** ** Asynchronous programs *)
(* ===================================================================== *)

(** A program either finishes (normally or by throwing), or performs one
    of the effects the sources use and continues.  [AxiosGet] is the only
    effect at which an [async] function is suspended: its continuation
    receives the settled promise. *)
Inductive Prog (A : Type) : Type :=
| Ret (a : A)
| Throw (e : JsError)
| AxiosGet (url : string) (params : JsObject) (k : AxiosOutcome -> Prog A)
| ConsoleError (msg : string) (e : JsError) (k : Prog A)
| GetState (k : CoordState -> Prog A)
| Modify (f : CoordState -> CoordState) (k : Prog A).

Arguments Ret {A} a.
Arguments Throw {A} e.
Arguments AxiosGet {A} url params k.
Arguments ConsoleError {A} msg e k.
Arguments GetState {A} k.
Arguments Modify {A} f k.

Fixpoint bind {A B : Type} (p : Prog A) (f : A -> Prog B) : Prog B :=
  match p with
  | Ret a => f a
  | Throw e => Throw e
  | AxiosGet u q k => AxiosGet u q (fun o => bind (k o) f)
  | ConsoleError m e k => ConsoleError m e (bind k f)
  | GetState k => GetState (fun s => bind (k s) f)
  | Modify g k => Modify g (bind k f)
  end.

(** [try { p } catch (error) { h error }] *)
Fixpoint try_catch {A : Type} (p : Prog A) (h : JsError -> Prog A) : Prog A :=
  match p with
  | Ret a => Ret a
  | Throw e => h e
  | AxiosGet u q k => AxiosGet u q (fun o => try_catch (k o) h)
  | ConsoleError m e k => ConsoleError m e (try_catch k h)
  | GetState k => GetState (fun s => try_catch (k s) h)
  | Modify g k => Modify g (try_catch k h)
  end.

(** [try { p } finally { fin }]: [fin] runs on both exits and the exit of
    [p] is kept. *)
Definition try_finally {A : Type} (p : Prog A) (fin : Prog unit) : Prog A :=
  bind (try_catch (bind p (fun a => Ret (inl a))) (fun e => Ret (inr e)))
       (fun r => bind fin (fun _ =>
                 match r with inl a => Ret a | inr e => Throw e end)).

#[global] Instance Prog_ret : MRet Prog := @Ret.
#[global] Instance Prog_bind : MBind Prog := fun A B f p => bind p f.

(** [await axios.get(url, { params })]: a resolved promise yields its
    response, a rejected one throws its reason. *)
Definition await_axios_get (url : string) (params : JsObject) : Prog AxiosResponse :=
  AxiosGet url params
    (fun o => match o with
              | Resolved response => Ret response
              | Rejected error => Throw error
              end).

Definition console_error (msg : string) (e : JsError) : Prog unit :=
  ConsoleError msg e (Ret tt).

Definition modify (f : CoordState -> CoordState) : Prog unit :=
  Modify f (Ret tt).

Definition get_state : Prog CoordState := GetState Ret.

(* ===================================================================== *)
(** ** [api.ts]: the fetch client *)
(* ===================================================================== *)

Section FetchClient.

(** The module-level constant; the two copies of [api.ts] differ only
    here. *)
Variable API_BASE_URL : string.

(** [fetchCompounds], with [params = {}] already substituted by the
    caller when the argument is omitted (see [fetchCompounds_default]). *)
Definition fetchCompounds_at (params : FilterParams) : Prog ApiResponse :=
  try_catch
    (response ← await_axios_get (API_BASE_URL +:+ "/items")
                  (spread (<["per_page" := VNum 50]> (<["page" := VNum 1]> ∅))
                          params);
     Ret (data_of response))
    (fun error =>
       console_error "Error fetching compounds:" error;;
       Throw error).

End FetchClient.

(** [frontend/src/api.ts] *)
Module Api.
Definition API_BASE_URL : string := "http://ms3fa.helmholtz-hzi.de:80/api".
Definition fetchCompounds (params : FilterParams) : Prog ApiResponse :=
  fetchCompounds_at API_BASE_URL params.
(** The call [fetchCompounds()]: the default parameter value [{}]. *)
Definition fetchCompounds_default : Prog ApiResponse := fetchCompounds ∅.
End Api.

(** The second copy of [api.ts]. *)
Module ApiCopy.
Definition API_BASE_URL : string := "http://104.194.156.115:443/api".
Definition fetchCompounds (params : FilterParams) : Prog ApiResponse :=
  fetchCompounds_at API_BASE_URL params.
Definition fetchCompounds_default : Prog ApiResponse := fetchCompounds ∅.
End ApiCopy.

(* ===================================================================== *)
(** ** Running a program up to its next suspension *)
(* ===================================================================== *)

Inductive Completion (A : Type) : Type :=
| Returned (a : A)
| Thrown (e : JsError).
Arguments Returned {A} a.
Arguments Thrown {A} e.

Inductive Status (A : Type) : Type :=
| Finished (s : CoordState) (console : list LogEntry) (r : Completion A)
| Suspended (s : CoordState) (console : list LogEntry)
            (url : string) (params : JsObject) (k : AxiosOutcome -> Prog A).
Arguments Finished {A} s console r.
Arguments Suspended {A} s console url params k.

(** Runs [p] from state [s] with the console output so far, until it
    finishes or awaits an HTTP response. *)
Fixpoint run {A : Type} (p : Prog A) (s : CoordState) (console : list LogEntry)
  : Status A :=
  match p with
  | Ret a => Finished s console (Returned a)
  | Throw e => Finished s console (Thrown e)
  | AxiosGet u q k => Suspended s console u q k
  | ConsoleError m e k => run k s (console ++ [mkLog m e])
  | GetState k => run (k s) s console
  | Modify f k => run k (f s) console
  end.

(** What a run has produced once it is over. *)
Record Outcome (A : Type) : Type := mkOutcome {
  final_state : CoordState;
  final_console : list LogEntry;
  issued : list (string * JsObject);   (* the GET requests, in order *)
  completion : Completion A
}.
Arguments mkOutcome {A} _ _ _ _.
Arguments final_state {A} _.
Arguments final_console {A} _.
Arguments issued {A} _.
Arguments completion {A} _.

(** Runs [p] to its end against a server [net] that settles every request
    at once. *)
Fixpoint complete {A : Type} (net : string -> JsObject -> AxiosOutcome)
    (p : Prog A) (s : CoordState) (console : list LogEntry)
    (sent : list (string * JsObject)) : Outcome A :=
  match p with
  | Ret a => mkOutcome s console sent (Returned a)
  | Throw e => mkOutcome s console sent (Thrown e)
  | AxiosGet u q k => complete net (k (net u q)) s console (sent ++ [(u, q)])
  | ConsoleError m e k => complete net k s (console ++ [mkLog m e]) sent
  | GetState k => complete net (k s) s console sent
  | Modify f k => complete net k (f s) console sent
  end.

(* ===================================================================== *)
(** ** [App.tsx]: the view *)
(* ===================================================================== *)

(** The six callbacks that [App] takes from the hook and hands on as props
    without calling them. *)
Inductive Handler : Type :=
| handleApplyFilters
| handleViewDetail
| handleBack
| handleNextCompound
| handlePreviousCompound
| handlePageChange.

Record DetailPageProps : Type := mkDetailPageProps {
  compound : Compound;
  onBack : Handler;
  onNext : Handler;
  onPrevious : Handler;
  currentIndex : Z;
  totalCount : Z
}.

Record FilterSidebarProps : Type := mkFilterSidebarProps {
  onApplyFilters : Handler
}.

Record ResultsTableProps : Type := mkResultsTableProps {
  table_data : list Compound;      (* prop [data] *)
  table_loading : bool;            (* prop [loading] *)
  onViewDetail : Handler;
  currentPage : Z;
  totalPages : Z;
  totalItems : Z;
  onPageChange : Handler
}.

(** What [App] returns: the detail page, or the list view made of the
    filter sidebar and the results table. *)
Inductive Element : Type :=
| DetailPage (props : DetailPageProps)
| ListView (sidebar : FilterSidebarProps) (table : ResultsTableProps).

Inductive PageName : Type := detail | home.

Definition PageName_eqb (a b : PageName) : bool :=
  match a, b with
  | detail, detail | home, home => true
  | _, _ => false
  end.

(** The callback [(item) => item.mol_idx === c.mol_idx]. *)
Definition same_mol_idx (c : Compound) (item : Compound) : bool :=
  mol_idx item =? mol_idx c.

(** [App], as a function of what [useCompounds()] returned. *)
Definition App (hook : CoordState) : Element :=
  let currentPageName :=
    match selectedCompound hook with Some _ => detail | None => home end in
  match PageName_eqb currentPageName detail, selectedCompound hook with
  | true, Some selected =>
      let currentIndex :=
        findIndex (same_mol_idx selected) (allFilteredCompounds hook) in
      DetailPage
        {| compound := selected;
           onBack := handleBack;
           onNext := handleNextCompound;
           onPrevious := handlePreviousCompound;
           currentIndex := currentIndex;
           totalCount := Z.of_nat (length (allFilteredCompounds hook)) |}
  | _, _ =>
      ListView
        {| onApplyFilters := handleApplyFilters |}
        {| table_data := or_array (opt_chain (data hook) items) [];
           table_loading := loading hook;
           onViewDetail := handleViewDetail;
           currentPage := or_num (opt_chain (data hook) page) 1;
           totalPages := or_num (opt_chain (data hook) total_pages) 0;
           totalItems := or_num (opt_chain (data hook) total_items) 0;
           onPageChange := handlePageChange |}
  end.

(** The page number the list view shows, when the list view is what is
    rendered. *)
Definition shown_page (e : Element) : option Z :=
  match e with
  | ListView _ table => Some (currentPage table)
  | DetailPage _ => None
  end.

(* ===================================================================== *)
(** ** The view-state coordinator *)
(* ===================================================================== *)

Module UseCompounds.

(** Modelled from the spec: [hooks/useCompounds.ts] is missing.  A fetch
    asks for the filters together with the page number, sets [loading] for
    as long as it is in flight, stores the returned page on success (its
    items become the current fetched set [allFilteredCompounds]), leaves
    [data] alone on failure and lets the error reach the caller. *)
Definition loadCompounds (filters : FilterParams) (pageNumber : Z) : Prog unit :=
  modify (set_loading true);;
  try_finally
    (response ← Api.fetchCompounds (<["page" := VNum pageNumber]> filters);
     modify (fun s => set_allFilteredCompounds (items response)
                        (set_data (Some response) s)))
    (modify (set_loading false)).

(** Modelled from the spec: [applyFilters(filters)] (passed to [App] as
    [handleApplyFilters]) replaces the current filters, resets to page 1
    and triggers a fetch. *)
Definition applyFilters (filters : FilterParams) : Prog unit :=
  modify (set_currentFilters filters);;
  modify (set_currentPageNumber 1);;
  loadCompounds filters 1.

(** Modelled from the spec: [changePage(n)] ([handlePageChange]) sets the
    page number and triggers a fetch with the existing filters and the
    new page, as the description of the operation has it.  Whether a page
    beyond the last one is rejected or clamped is left open there and is
    not modelled; nothing below depends on it. *)
Definition changePage (n : Z) : Prog unit :=
  modify (set_currentPageNumber n);;
  s ← get_state;
  loadCompounds (currentFilters s) n.

(** Modelled from the spec: [viewDetail(compound)] ([handleViewDetail])
    sets [selectedCompound] and does not refetch. *)
Definition viewDetail (c : Compound) : Prog unit :=
  modify (set_selectedCompound (Some c)).

(** Modelled from the spec: [back()] ([handleBack]) clears
    [selectedCompound]. *)
Definition back : Prog unit :=
  modify (set_selectedCompound None).

(** Modelled from the spec: the current compound is located in
    [allFilteredCompounds] by its [mol_idx]; the selection moves to the
    entry [delta] places further when there is one and stays where it is
    otherwise (clamped at the ends, no wrap-around). *)
Definition moveSelection (delta : Z) : Prog unit :=
  s ← get_state;
  match selectedCompound s with
  | None => Ret tt
  | Some current =>
      let i := findIndex (same_mol_idx current) (allFilteredCompounds s) in
      if i <? 0 then Ret tt
      else match array_get (allFilteredCompounds s) (i + delta) with
           | Some target => modify (set_selectedCompound (Some target))
           | None => Ret tt
           end
  end.

(** Modelled from the spec: [nextCompound()] ([handleNextCompound]). *)
Definition nextCompound : Prog unit := moveSelection 1.

(** Modelled from the spec: [previousCompound()]
    ([handlePreviousCompound]). *)
Definition previousCompound : Prog unit := moveSelection (-1).

(** Modelled from the spec: the state before anything was fetched. *)
Definition initialState : CoordState :=
  mkCoord None false None [] ∅ 1.

End UseCompounds.

(* ===================================================================== *)
(** ** The event loop *)
(* ===================================================================== *)

(** A user interaction: one of the hook's callbacks is called with its
    argument. *)
Inductive UserAction : Type :=
| DoApplyFilters (filters : FilterParams)
| DoPageChange (n : Z)
| DoViewDetail (c : Compound)
| DoBack
| DoNextCompound
| DoPreviousCompound.

Definition dispatch (a : UserAction) : Prog unit :=
  match a with
  | DoApplyFilters filters => UseCompounds.applyFilters filters
  | DoPageChange n => UseCompounds.changePage n
  | DoViewDetail c => UseCompounds.viewDetail c
  | DoBack => UseCompounds.back
  | DoNextCompound => UseCompounds.nextCompound
  | DoPreviousCompound => UseCompounds.previousCompound
  end.

(** The actions that start a fetch. *)
Definition fetching (a : UserAction) : bool :=
  match a with
  | DoApplyFilters _ | DoPageChange _ => true
  | _ => false
  end.

(** An event of the single-threaded loop: a user interaction, or the
    [i]-th request in flight settles with outcome [o]. *)
Inductive Event : Type :=
| User (a : UserAction)
| Settle (i : nat) (o : AxiosOutcome).

Record Config : Type := mkConfig {
  state : CoordState;
  inflight : list (AxiosOutcome -> Prog unit);   (* suspended callers *)
  requests : list (string * JsObject);           (* every GET issued *)
  console : list LogEntry;
  rejections : list JsError                      (* errors handed to callers *)
}.

(** Folds the result of running one task into the configuration. *)
Definition absorb (c : Config) (waiting : list (AxiosOutcome -> Prog unit))
    (st : Status unit) : Config :=
  match st with
  | Finished s log (Returned _) =>
      mkConfig s waiting (requests c) log (rejections c)
  | Finished s log (Thrown e) =>
      mkConfig s waiting (requests c) log (rejections c ++ [e])
  | Suspended s log url params k =>
      mkConfig s (waiting ++ [k]) (requests c ++ [(url, params)]) log
               (rejections c)
  end.

Definition step (c : Config) (ev : Event) : Config :=
  match ev with
  | User a =>
      absorb c (inflight c) (run (dispatch a) (state c) (console c))
  | Settle i o =>
      match inflight c !! i with
      | Some k =>
          absorb c (delete i (inflight c)) (run (k o) (state c) (console c))
      | None => c
      end
  end.

Definition exec (evs : list Event) (c : Config) : Config :=
  fold_left step evs c.

Definition initialConfig : Config :=
  mkConfig UseCompounds.initialState [] [] [] [].

(** The response, if any, that event [ev] delivers in configuration [c]. *)
Definition delivered (c : Config) (ev : Event) : option ApiResponse :=
  match ev with
  | Settle i (Resolved response) =>
      match inflight c !! i with
      | Some _ => Some (data_of response)
      | None => None
      end
  | _ => None
  end.

(** The most recent successfully fetched response along a run. *)
Fixpoint lastSuccess (evs : list Event) (c : Config)
    (sofar : option ApiResponse) : option ApiResponse :=
  match evs with
  | [] => sofar
  | ev :: evs' =>
      lastSuccess evs' (step c ev)
        (match delivered c ev with Some r => Some r | None => sofar end)
  end.


(* ===================================================================== *)
(** ** Statements used by the theorems *)
(* ===================================================================== *)

(** The defaults [{page: 1, per_page: 50}], read as a lookup table. *)
Definition default_query (key : string) : option JsValue :=
  if decide (key = "page") then Some (VNum 1)
  else if decide (key = "per_page") then Some (VNum 50)
  else None.

(** [q] is the defaults overridden by [f]: a key of [f] wins, any other
    key keeps its default. *)
Definition overridden_by (f q : JsObject) : Prop :=
  forall key : string,
    q !! key = match f !! key with
               | Some v => Some v
               | None => default_query key
               end.

(** What a continuation left behind by [loadCompounds] does when its
    request settles. *)
Definition settled (o : AxiosOutcome) (s : CoordState) : CoordState :=
  match o with
  | Resolved response =>
      set_loading false
        (set_allFilteredCompounds (items (data_of response))
           (set_data (Some (data_of response)) s))
  | Rejected _ => set_loading false s
  end.

Definition settles (k : AxiosOutcome -> Prog unit) : Prop :=
  forall o s log,
    run (k o) s log =
    match o with
    | Resolved _ => Finished (settled o s) log (Returned tt)
    | Rejected e =>
        Finished (settled o s)
                 (log ++ [mkLog "Error fetching compounds:" e]) (Thrown e)
    end.

(** Where [moveSelection] leaves the state. *)
Definition moved (delta : Z) (s : CoordState) : CoordState :=
  match selectedCompound s with
  | None => s
  | Some current =>
      let i := findIndex (same_mol_idx current) (allFilteredCompounds s) in
      if i <? 0 then s
      else match array_get (allFilteredCompounds s) (i + delta) with
           | Some target => set_selectedCompound (Some target) s
           | None => s
           end
  end.

(** The three compounds of the navigation example. *)
Definition compoundA : Compound := mkCompound 1 [("name", VStr "A")].
Definition compoundB : Compound := mkCompound 2 [("name", VStr "B")].
Definition compoundC : Compound := mkCompound 3 [("name", VStr "C")].

(** A coordinator state showing [selected] out of [A; B; C]. *)
Definition exampleState (selected : Compound) : CoordState :=
  mkCoord None false (Some selected) [compoundA; compoundB; compoundC] ∅ 1.

(** A response for an empty result set, with page number 0. *)
Definition emptyPage : ApiResponse := mkApiResponse [] 0 0 0.

(** The first of three pages. *)
Definition firstOfThree : ApiResponse :=
  mkApiResponse [compoundA; compoundB; compoundC] 1 3 120.

(** The page number the list view is expected to show for a given last
    response: the response's own page unless that is 0. *)
Definition page_to_show (last : option ApiResponse) : Z :=
  match last with
  | Some r => if page r =? 0 then 1 else page r
  | None => 1
  end.

Definition reachable (c : Config) : Prop :=
  exists evs : list Event, c = exec evs initialConfig.

(* ===================================================================== *)
(** ** The fetch client *)
(* ===================================================================== *)

Section FetchClientFacts.

Variable base : string.

Lemma default_object_lookup (key : string) :
  (<["per_page" := VNum 50]> (<["page" := VNum 1]> ∅) : JsObject) !! key
  = default_query key.
Proof.
  unfold default_query.
  destruct (decide (key = "per_page")) as [-> | Hpp].
  - rewrite lookup_insert_eq. reflexivity.
  - rewrite lookup_insert_ne by congruence.
    destruct (decide (key = "page")) as [-> | Hp].
    + rewrite lookup_insert_eq. reflexivity.
    + rewrite lookup_insert_ne by congruence. apply lookup_empty.
Qed.

Lemma spread_defaults_overridden (f : FilterParams) :
  overridden_by f
    (spread (<["per_page" := VNum 50]> (<["page" := VNum 1]> ∅)) f).
Proof.
  intros key. unfold spread. rewrite lookup_union.
  rewrite default_object_lookup.
  destruct (f !! key) as [v |]; simpl.
  - destruct (default_query key); reflexivity.
  - destruct (default_query key); reflexivity.
Qed.

(** The whole behaviour of [fetchCompounds] against any server. *)
Lemma fetchCompounds_at_complete (f : FilterParams) net s log sent :
  let url := base +:+ "/items" in
  let q := spread (<["per_page" := VNum 50]> (<["page" := VNum 1]> ∅)) f in
  complete net (fetchCompounds_at base f) s log sent =
  match net url q with
  | Resolved response =>
      mkOutcome s log (sent ++ [(url, q)]) (Returned (data_of response))
  | Rejected e =>
      mkOutcome s (log ++ [mkLog "Error fetching compounds:" e])
                (sent ++ [(url, q)]) (Thrown e)
  end.
Proof.
  simpl. destruct (net _ _); reflexivity.
Qed.

End FetchClientFacts.

(** C1. For every filter object [f], [fetchCompounds(f)] issues exactly one
    GET, to the base URL followed by [/items], whatever the server answers;
    the query parameters of that request are [{page: 1, per_page: 50}]
    overridden by [f], so a [page] or [per_page] key of [f] replaces the
    default; with the argument omitted (the empty object) they are exactly
    the defaults.  This holds for both copies of [api.ts]. *)
Theorem fetchCompounds_query_params (f : FilterParams)
    (net : string -> JsObject -> AxiosOutcome) (s : CoordState)
    (log : list LogEntry) :
  exists q q0 : JsObject,
    overridden_by f q
    /\ issued (complete net (Api.fetchCompounds f) s log [])
       = [("http://ms3fa.helmholtz-hzi.de:80/api/items", q)]
    /\ issued (complete net (ApiCopy.fetchCompounds f) s log [])
       = [("http://104.194.156.115:443/api/items", q)]
    /\ (forall v, f !! "page" = Some v -> q !! "page" = Some v)
    /\ (forall v, f !! "per_page" = Some v -> q !! "per_page" = Some v)
    /\ issued (complete net Api.fetchCompounds_default s log [])
       = [("http://ms3fa.helmholtz-hzi.de:80/api/items", q0)]
    /\ issued (complete net ApiCopy.fetchCompounds_default s log [])
       = [("http://104.194.156.115:443/api/items", q0)]
    /\ (forall key, q0 !! key = default_query key).
Proof.
  exists (spread (<["per_page" := VNum 50]> (<["page" := VNum 1]> ∅)) f).
  exists (spread (<["per_page" := VNum 50]> (<["page" := VNum 1]> ∅)) ∅).
  pose proof (spread_defaults_overridden f) as Hq.
  pose proof (spread_defaults_overridden ∅) as Hq0.
  split; [exact Hq |].
  unfold Api.fetchCompounds_default, ApiCopy.fetchCompounds_default,
    Api.fetchCompounds, ApiCopy.fetchCompounds.
  rewrite !fetchCompounds_at_complete.
  repeat split.
  - destruct (net _ _); reflexivity.
  - destruct (net _ _); reflexivity.
  - intros v Hv. rewrite (Hq "page"), Hv. reflexivity.
  - intros v Hv. rewrite (Hq "per_page"), Hv. reflexivity.
  - destruct (net _ _); reflexivity.
  - destruct (net _ _); reflexivity.
  - intros key. rewrite (Hq0 key), lookup_empty. reflexivity.
Qed.

Lemma fetchCompounds_query_params_witness :
  exists q : JsObject,
    issued (complete (fun _ _ => Rejected (BadStatus 500))
              (Api.fetchCompounds (<["page" := VNum 7]> ∅))
              UseCompounds.initialState [] [])
    = [("http://ms3fa.helmholtz-hzi.de:80/api/items", q)]
    /\ q !! "page" = Some (VNum 7)
    /\ q !! "per_page" = Some (VNum 50).
Proof.
  destruct (fetchCompounds_query_params (<["page" := VNum 7]> ∅)
              (fun _ _ => Rejected (BadStatus 500))
              UseCompounds.initialState [])
    as (q & _ & Hq & Hreq & _ & Hpage & _).
  exists q. split; [exact Hreq |]. split.
  - apply Hpage. reflexivity.
  - rewrite (Hq "per_page"). reflexivity.
Defined.

(** C6. Whatever the server answers to the one GET of [fetchCompounds]:
    when the request is rejected with [e] (transport error or non-2xx
    status) the function logs [e] once with [console.error], throws that
    same [e], and has sent no second request; when it is resolved the
    function returns [response.data] and logs nothing.  So it returns
    normally only on a resolved request.  Both copies of [api.ts] behave
    so. *)
Theorem fetchCompounds_rethrows (f : FilterParams)
    (net : string -> JsObject -> AxiosOutcome) (s : CoordState)
    (log : list LogEntry) :
  exists q : JsObject,
    let url := Api.API_BASE_URL +:+ "/items" in
    let url' := ApiCopy.API_BASE_URL +:+ "/items" in
    complete net (Api.fetchCompounds f) s log [] =
      match net url q with
      | Rejected e =>
          mkOutcome s (log ++ [mkLog "Error fetching compounds:" e])
                    [(url, q)] (Thrown e)
      | Resolved response =>
          mkOutcome s log [(url, q)] (Returned (data_of response))
      end
    /\ complete net (ApiCopy.fetchCompounds f) s log [] =
      match net url' q with
      | Rejected e =>
          mkOutcome s (log ++ [mkLog "Error fetching compounds:" e])
                    [(url', q)] (Thrown e)
      | Resolved response =>
          mkOutcome s log [(url', q)] (Returned (data_of response))
      end.
Proof.
  exists (spread (<["per_page" := VNum 50]> (<["page" := VNum 1]> ∅)) f).
  cbv zeta. unfold Api.fetchCompounds, ApiCopy.fetchCompounds.
  rewrite !fetchCompounds_at_complete.
  split; destruct (net _ _); reflexivity.
Qed.

(* ===================================================================== *)
(** ** The view *)
(* ===================================================================== *)

Section FindIndex.

Context {A : Type} (p : A -> bool).

Lemma findIndex_from_none (l : list A) (i : Z) :
  Forall (fun x => p x = false) l -> findIndex_from p l i = -1.
Proof.
  intros H. revert i. induction H as [| x l Hx _ IH]; intros i; simpl.
  - reflexivity.
  - rewrite Hx. apply IH.
Qed.

Lemma findIndex_from_first (l : list A) (i : Z) (n : nat) (x : A) :
  l !! n = Some x ->
  p x = true ->
  (forall m y, (m < n)%nat -> l !! m = Some y -> p y = false) ->
  findIndex_from p l i = i + Z.of_nat n.
Proof.
  revert i n. induction l as [| a l IH]; intros i n Hn Hx Hbefore.
  - discriminate.
  - destruct n as [| n]; simpl in *.
    + injection Hn as ->. rewrite Hx. lia.
    + rewrite (Hbefore 0%nat a) by (reflexivity || lia).
      rewrite (IH (i + 1) n Hn Hx).
      * lia.
      * intros m y Hm Hy. apply (Hbefore (S m) y); [lia | exact Hy].
Qed.

(** [findIndex] returns [-1] exactly when nothing matches, and otherwise
    the position of the first match. *)
Lemma findIndex_spec (l : list A) :
  (findIndex p l = -1 /\ Forall (fun x => p x = false) l)
  \/ (exists (n : nat) (x : A),
        findIndex p l = Z.of_nat n
        /\ l !! n = Some x
        /\ p x = true
        /\ forall m y, (m < n)%nat -> l !! m = Some y -> p y = false).
Proof.
  unfold findIndex. induction l as [| a l IH].
  - left. split; [reflexivity | constructor].
  - destruct (p a) eqn:Ha.
    + right. exists 0%nat, a. simpl. rewrite Ha.
      repeat split; try reflexivity. intros m y Hm. lia.
    + destruct IH as [[_ Hall] | (n & x & _ & Hn & Hx & Hbefore)].
      * left. split; [| constructor; assumption].
        apply findIndex_from_none. constructor; assumption.
      * right. exists (S n), x.
        assert (Hb : forall m y, (m < S n)%nat ->
                                 (a :: l) !! m = Some y -> p y = false).
        { intros [| m] y Hm Hy; simpl in Hy.
          - injection Hy as <-. exact Ha.
          - apply (Hbefore m y); [lia | exact Hy]. }
        repeat split; try assumption.
        rewrite (findIndex_from_first (a :: l) 0 (S n) x); auto.
Qed.

Lemma findIndex_range (l : list A) :
  -1 <= findIndex p l < Z.of_nat (length l).
Proof.
  destruct (findIndex_spec l) as [[-> _] | (n & x & -> & Hn & _)].
  - lia.
  - apply lookup_lt_Some in Hn. lia.
Qed.

End FindIndex.

(** C9. [App] renders the detail page exactly when [selectedCompound] is
    not null.  The [currentIndex] it then passes is [-1] when no element of
    [allFilteredCompounds] has the selected compound's [mol_idx], and
    otherwise the position of the first element that has it. *)
Theorem App_detail_page (hook : CoordState) :
  ((exists props, App hook = DetailPage props) <-> selectedCompound hook <> None)
  /\ forall selected : Compound,
       selectedCompound hook = Some selected ->
       exists props : DetailPageProps,
         App hook = DetailPage props
         /\ compound props = selected
         /\ totalCount props = Z.of_nat (length (allFilteredCompounds hook))
         /\ ((currentIndex props = -1
              /\ forall item, item ∈ allFilteredCompounds hook ->
                              mol_idx item <> mol_idx selected)
             \/ (exists (n : nat) (item : Compound),
                   currentIndex props = Z.of_nat n
                   /\ allFilteredCompounds hook !! n = Some item
                   /\ mol_idx item = mol_idx selected
                   /\ forall m item', (m < n)%nat ->
                        allFilteredCompounds hook !! m = Some item' ->
                        mol_idx item' <> mol_idx selected)).
Proof.
  split.
  - unfold App. destruct (selectedCompound hook) as [c |]; simpl.
    + split; [congruence | eauto].
    + split; [intros [props H]; discriminate | congruence].
  - intros selected Hsel. unfold App. rewrite Hsel. simpl.
    eexists. split; [reflexivity |]. simpl.
    split; [reflexivity |]. split; [reflexivity |].
    destruct (findIndex_spec (same_mol_idx selected)
                (allFilteredCompounds hook))
      as [[Hi Hall] | (n & x & Hi & Hn & Hx & Hbefore)].
    + left. split; [exact Hi |].
      intros item Hin. rewrite Forall_forall in Hall.
      specialize (Hall item Hin). unfold same_mol_idx in Hall. lia.
    + right. exists n, x. unfold same_mol_idx in *.
      repeat split; try assumption.
      * lia.
      * intros m item' Hm Hitem'. specialize (Hbefore m item' Hm Hitem'). lia.
Qed.

Lemma App_detail_page_witness :
  exists props : DetailPageProps,
    App (exampleState compoundB) = DetailPage props
    /\ compound props = compoundB
    /\ totalCount props = 3.
Proof.
  destruct (App_detail_page (exampleState compoundB)) as [_ H].
  destruct (H compoundB eq_refl) as (props & Happ & Hc & Hn & _).
  exists props. split; [exact Happ |]. split; [exact Hc | exact Hn].
Defined.

(** C10. When [data] is null, the list view (rendered when no compound is
    selected) gives the results table an empty item list, current page 1,
    total pages 0 and total items 0. *)
Theorem App_list_view_defaults (hook : CoordState) :
  data hook = None ->
  (selectedCompound hook = None ->
   App hook =
   ListView
     {| onApplyFilters := handleApplyFilters |}
     {| table_data := [];
        table_loading := loading hook;
        onViewDetail := handleViewDetail;
        currentPage := 1;
        totalPages := 0;
        totalItems := 0;
        onPageChange := handlePageChange |})
  /\ (forall sidebar table,
        App hook = ListView sidebar table ->
        table_data table = [] /\ currentPage table = 1
        /\ totalPages table = 0 /\ totalItems table = 0).
Proof.
  intros Hdata. split.
  - intros Hsel. unfold App. rewrite Hsel, Hdata. reflexivity.
  - intros sidebar table. unfold App. rewrite Hdata.
    destruct (selectedCompound hook); simpl; [discriminate |].
    intros H. injection H as _ <-. repeat split.
Qed.

Lemma App_list_view_defaults_witness :
  App UseCompounds.initialState =
  ListView
    {| onApplyFilters := handleApplyFilters |}
    {| table_data := [];
       table_loading := false;
       onViewDetail := handleViewDetail;
       currentPage := 1;
       totalPages := 0;
       totalItems := 0;
       onPageChange := handlePageChange |}.
Proof.
  destruct (App_list_view_defaults UseCompounds.initialState eq_refl)
    as [H _].
  exact (H eq_refl).
Defined.

(* ===================================================================== *)
(** ** The coordinator: navigation *)
(* ===================================================================== *)

Lemma run_moveSelection (delta : Z) (s : CoordState) (log : list LogEntry) :
  run (UseCompounds.moveSelection delta) s log
  = Finished (moved delta s) log (Returned tt).
Proof.
  unfold UseCompounds.moveSelection, moved. simpl.
  destruct (selectedCompound s) as [current |]; [| reflexivity].
  destruct (_ <? 0); [reflexivity |].
  destruct (array_get _ _); reflexivity.
Qed.

Lemma array_get_in_range {A : Type} (l : list A) (i : Z) :
  0 <= i < Z.of_nat (length l) ->
  exists x, array_get l i = Some x /\ l !! Z.to_nat i = Some x.
Proof.
  intros Hi. unfold array_get.
  destruct (i <? 0) eqn:Hneg; [lia |].
  destruct (lookup_lt_is_Some_2 l (Z.to_nat i)) as [x Hx]; [lia |].
  exists x. split; exact Hx.
Qed.

Lemma array_get_out_of_range {A : Type} (l : list A) (i : Z) :
  i < 0 \/ Z.of_nat (length l) <= i -> array_get l i = None.
Proof.
  intros Hi. unfold array_get.
  destruct (i <? 0) eqn:Hneg; [reflexivity |].
  apply lookup_ge_None_2. lia.
Qed.

(** With identifiers that are unique in the list, a compound is located
    at the position where it sits. *)
Lemma findIndex_unique (l : list Compound) (n : nat) (c : Compound) :
  NoDup (map mol_idx l) ->
  l !! n = Some c ->
  findIndex (same_mol_idx c) l = Z.of_nat n.
Proof.
  intros Hnodup Hn. unfold findIndex.
  rewrite (findIndex_from_first (same_mol_idx c) l 0 n c Hn).
  - lia.
  - unfold same_mol_idx. lia.
  - intros m y Hm Hy. unfold same_mol_idx.
    destruct (mol_idx y =? mol_idx c) eqn:Heq; [| reflexivity].
    exfalso. apply Z.eqb_eq in Heq.
    assert (Hmn : m = n); [| lia].
    apply (NoDup_lookup (map mol_idx l) m n (mol_idx c) Hnodup).
    + rewrite list_lookup_fmap, Hy. simpl. congruence.
    + rewrite list_lookup_fmap, Hn. reflexivity.
Qed.

(** C3. With the selected compound located (by [mol_idx]) at the last
    index of [allFilteredCompounds], [nextCompound()] returns normally and
    leaves the whole state as it was; located at index 0,
    [previousCompound()] does the same.  In particular this is so when the
    selected compound is the last, or the first, element of a list whose
    [mol_idx] values are unique. *)
Theorem navigation_clamped_at_ends (s : CoordState) (log : list LogEntry)
    (current : Compound) :
  selectedCompound s = Some current ->
  let i := findIndex (same_mol_idx current) (allFilteredCompounds s) in
  (i = Z.of_nat (length (allFilteredCompounds s)) - 1 ->
   run UseCompounds.nextCompound s log = Finished s log (Returned tt))
  /\ (i = 0 ->
      run UseCompounds.previousCompound s log = Finished s log (Returned tt))
  /\ (NoDup (map mol_idx (allFilteredCompounds s)) ->
      last (allFilteredCompounds s) = Some current ->
      run UseCompounds.nextCompound s log = Finished s log (Returned tt))
  /\ (head (allFilteredCompounds s) = Some current ->
      run UseCompounds.previousCompound s log = Finished s log (Returned tt)).
Proof.
  intros Hsel i.
  assert (Hnext : i = Z.of_nat (length (allFilteredCompounds s)) - 1 ->
                  run UseCompounds.nextCompound s log
                  = Finished s log (Returned tt)).
  { intros Hi. unfold UseCompounds.nextCompound.
    rewrite run_moveSelection. unfold moved. rewrite Hsel. fold i.
    destruct (i <? 0); [reflexivity |].
    rewrite array_get_out_of_range by lia. reflexivity. }
  assert (Hprev : i = 0 ->
                  run UseCompounds.previousCompound s log
                  = Finished s log (Returned tt)).
  { intros Hi. unfold UseCompounds.previousCompound.
    rewrite run_moveSelection. unfold moved. rewrite Hsel. fold i.
    destruct (i <? 0); [reflexivity |].
    rewrite array_get_out_of_range by lia. reflexivity. }
  split; [exact Hnext |]. split; [exact Hprev |]. split.
  - intros Hnodup Hlast. apply Hnext. subst i.
    rewrite last_lookup in Hlast.
    rewrite (findIndex_unique _ _ _ Hnodup Hlast).
    apply lookup_lt_Some in Hlast. lia.
  - intros Hhead. apply Hprev. subst i.
    destruct (allFilteredCompounds s) as [| x l]; [discriminate |].
    injection Hhead as ->. unfold findIndex. cbn [findIndex_from].
    unfold same_mol_idx. rewrite Z.eqb_refl. reflexivity.
Qed.

Lemma navigation_clamped_at_ends_witness :
  run UseCompounds.nextCompound (exampleState compoundC) []
  = Finished (exampleState compoundC) [] (Returned tt)
  /\ run UseCompounds.previousCompound (exampleState compoundA) []
     = Finished (exampleState compoundA) [] (Returned tt).
Proof.
  split.
  - destruct (navigation_clamped_at_ends (exampleState compoundC) []
                compoundC eq_refl) as (Hnext & _ & _ & _).
    apply Hnext. reflexivity.
  - destruct (navigation_clamped_at_ends (exampleState compoundA) []
                compoundA eq_refl) as (_ & Hprev & _ & _).
    apply Hprev. reflexivity.
Defined.

(** C4. With the selected compound located (by [mol_idx]) at index [i]:
    when [i] is not the last index, [nextCompound()] selects the element at
    [i+1]; when [i] is not 0, [previousCompound()] selects the element at
    [i-1]; nothing else in the state changes.  For [A; B; C] with [B]
    selected, [nextCompound()] selects [C], and [previousCompound()] from
    there selects [B] again. *)
Theorem navigation_moves_to_neighbour (s : CoordState) (log : list LogEntry)
    (current : Compound) (i : Z) :
  selectedCompound s = Some current ->
  findIndex (same_mol_idx current) (allFilteredCompounds s) = i ->
  0 <= i ->
  (i < Z.of_nat (length (allFilteredCompounds s)) - 1 ->
   exists target,
     allFilteredCompounds s !! Z.to_nat (i + 1) = Some target
     /\ run UseCompounds.nextCompound s log
        = Finished (set_selectedCompound (Some target) s) log (Returned tt))
  /\ (0 < i ->
      exists target,
        allFilteredCompounds s !! Z.to_nat (i - 1) = Some target
        /\ run UseCompounds.previousCompound s log
           = Finished (set_selectedCompound (Some target) s) log (Returned tt))
  /\ run UseCompounds.nextCompound (exampleState compoundB) log
     = Finished (exampleState compoundC) log (Returned tt)
  /\ run UseCompounds.previousCompound (exampleState compoundC) log
     = Finished (exampleState compoundB) log (Returned tt).
Proof.
  intros Hsel Hi Hpos.
  pose proof (findIndex_range (same_mol_idx current) (allFilteredCompounds s))
    as Hrange.
  unfold UseCompounds.nextCompound, UseCompounds.previousCompound.
  rewrite !run_moveSelection. unfold moved at 1 2. rewrite Hsel, Hi.
  destruct (i <? 0) eqn:Hneg; [lia |].
  repeat split.
  - intros Hlast.
    destruct (array_get_in_range (allFilteredCompounds s) (i + 1))
      as (x & Hget & Hx); [lia |].
    exists x. rewrite Hget. split; [exact Hx | reflexivity].
  - intros Hfirst.
    destruct (array_get_in_range (allFilteredCompounds s) (i + -1))
      as (x & Hget & Hx); [lia |].
    exists x. rewrite Hget. split; [exact Hx | reflexivity].
Qed.

Lemma navigation_moves_to_neighbour_witness :
  exists target,
    allFilteredCompounds (exampleState compoundB) !! 2%nat = Some target
    /\ run UseCompounds.nextCompound (exampleState compoundB) []
       = Finished (set_selectedCompound (Some target) (exampleState compoundB))
                  [] (Returned tt).
Proof.
  destruct (navigation_moves_to_neighbour (exampleState compoundB) []
              compoundB 1 eq_refl eq_refl ltac:(lia)) as [Hnext _].
  apply Hnext. simpl. lia.
Defined.

(* ===================================================================== *)
(** ** The coordinator: fetching *)
(* ===================================================================== *)

Lemma run_loadCompounds (filters : FilterParams) (n : Z) (s : CoordState)
    (log : list LogEntry) :
  exists k,
    run (UseCompounds.loadCompounds filters n) s log
    = Suspended (set_loading true s) log (Api.API_BASE_URL +:+ "/items")
        (spread (<["per_page" := VNum 50]> (<["page" := VNum 1]> ∅))
                (<["page" := VNum n]> filters))
        k
    /\ settles k.
Proof.
  eexists. split; [reflexivity |].
  intros o s' log'. destruct o; reflexivity.
Qed.

Lemma run_applyFilters (filters : FilterParams) (s : CoordState)
    (log : list LogEntry) :
  exists k,
    run (UseCompounds.applyFilters filters) s log
    = Suspended
        (set_loading true (set_currentPageNumber 1 (set_currentFilters filters s)))
        log (Api.API_BASE_URL +:+ "/items")
        (spread (<["per_page" := VNum 50]> (<["page" := VNum 1]> ∅))
                (<["page" := VNum 1]> filters))
        k
    /\ settles k.
Proof.
  eexists. split; [reflexivity |].
  intros o s' log'. destruct o; reflexivity.
Qed.

Lemma run_changePage (n : Z) (s : CoordState) (log : list LogEntry) :
  exists k,
    run (UseCompounds.changePage n) s log
    = Suspended
        (set_loading true (set_currentPageNumber n s))
        log (Api.API_BASE_URL +:+ "/items")
        (spread (<["per_page" := VNum 50]> (<["page" := VNum 1]> ∅))
                (<["page" := VNum n]> (currentFilters s)))
        k
    /\ settles k.
Proof.
  eexists. split; [reflexivity |].
  intros o s' log'. destruct o; reflexivity.
Qed.


Lemma moved_selection (delta : Z) (s : CoordState) :
  exists sel, moved delta s = set_selectedCompound sel s.
Proof.
  unfold moved. destruct s as [d l sel all f n]; simpl.
  destruct sel as [current |]; [| exists None; reflexivity].
  destruct (_ <? 0); [exists (Some current); reflexivity |].
  destruct (array_get _ _) as [target |];
    [exists (Some target) | exists (Some current)]; reflexivity.
Qed.

(** A user action that starts no fetch touches [selectedCompound] only. *)
Lemma step_not_fetching (a : UserAction) (c : Config) :
  fetching a = false ->
  exists sel,
    step c (User a)
    = mkConfig (set_selectedCompound sel (state c)) (inflight c) (requests c)
               (console c) (rejections c).
Proof.
  destruct a; try (intros Hf; discriminate Hf); intros _; unfold step, dispatch.
  - exists (Some c0). reflexivity.
  - exists None. reflexivity.
  - unfold UseCompounds.nextCompound. rewrite run_moveSelection.
    destruct (moved_selection 1 (state c)) as [sel ->]. exists sel. reflexivity.
  - unfold UseCompounds.previousCompound. rewrite run_moveSelection.
    destruct (moved_selection (-1) (state c)) as [sel ->]. exists sel.
    reflexivity.
Qed.

(** A user action that starts a fetch adds one request and one suspended
    caller, and leaves [data] alone. *)
Lemma step_fetching (a : UserAction) (c : Config) :
  fetching a = true ->
  exists s' url q k,
    step c (User a)
    = mkConfig s' (inflight c ++ [k]) (requests c ++ [(url, q)])
               (console c) (rejections c)
    /\ settles k
    /\ data s' = data (state c)
    /\ selectedCompound s' = selectedCompound (state c)
    /\ loading s' = true.
Proof.
  destruct a; try (intros Hf; discriminate Hf); intros _; unfold step, dispatch.
  - destruct (run_applyFilters filters (state c) (console c)) as (k & -> & Hk).
    do 4 eexists. split; [reflexivity |]. repeat split. exact Hk.
  - destruct (run_changePage n (state c) (console c)) as (k & -> & Hk).
    do 4 eexists. split; [reflexivity |]. repeat split. exact Hk.
Qed.

(** Settling a suspended [loadCompounds]. *)
Lemma step_settle (c : Config) (i : nat) (o : AxiosOutcome)
    (k : AxiosOutcome -> Prog unit) :
  inflight c !! i = Some k ->
  settles k ->
  step c (Settle i o)
  = match o with
    | Resolved _ =>
        mkConfig (settled o (state c)) (delete i (inflight c)) (requests c)
                 (console c) (rejections c)
    | Rejected e =>
        mkConfig (settled o (state c)) (delete i (inflight c)) (requests c)
                 (console c ++ [mkLog "Error fetching compounds:" e])
                 (rejections c ++ [e])
    end.
Proof.
  intros Hi Hk. simpl. rewrite Hi, Hk. destruct o; reflexivity.
Qed.

Lemma step_keeps_settles (c : Config) (ev : Event) :
  Forall settles (inflight c) -> Forall settles (inflight (step c ev)).
Proof.
  intros Hinv. destruct ev as [a | i o].
  - destruct (fetching a) eqn:Hf.
    + destruct (step_fetching a c Hf) as (s' & url & q & k & -> & Hk & _).
      simpl. apply Forall_app. split; [exact Hinv | repeat constructor; exact Hk].
    + destruct (step_not_fetching a c Hf) as (sel & ->). exact Hinv.
  - destruct (inflight c !! i) as [k |] eqn:Hi.
    + assert (Hk : settles k).
      { rewrite Forall_forall in Hinv. apply Hinv.
        apply list_elem_of_lookup. eauto. }
      rewrite (step_settle c i o k Hi Hk).
      destruct o; simpl; apply Forall_delete; exact Hinv.
    + simpl. rewrite Hi. exact Hinv.
Qed.

Lemma exec_keeps_settles (evs : list Event) (c : Config) :
  Forall settles (inflight c) -> Forall settles (inflight (exec evs c)).
Proof.
  revert c. induction evs as [| ev evs IH]; intros c Hinv; simpl.
  - exact Hinv.
  - apply IH, step_keeps_settles, Hinv.
Qed.

Lemma reachable_settles (c : Config) :
  reachable c -> Forall settles (inflight c).
Proof.
  intros [evs ->]. apply exec_keeps_settles. constructor.
Qed.

(** Along any run, [data] is the response delivered last. *)
Lemma data_is_lastSuccess (evs : list Event) (c : Config) :
  Forall settles (inflight c) ->
  data (state (exec evs c)) = lastSuccess evs c (data (state c)).
Proof.
  revert c. induction evs as [| ev evs IH]; intros c Hinv; simpl.
  - reflexivity.
  - rewrite (IH (step c ev)) by (apply step_keeps_settles; exact Hinv).
    f_equal. destruct ev as [a | i o]; simpl delivered.
    + destruct (fetching a) eqn:Hf.
      * destruct (step_fetching a c Hf) as (s' & url & q & k & -> & _ & Hd & _).
        exact Hd.
      * destruct (step_not_fetching a c Hf) as (sel & ->). reflexivity.
    + destruct (inflight c !! i) as [k |] eqn:Hi.
      * assert (Hk : settles k).
        { rewrite Forall_forall in Hinv. apply Hinv.
          apply list_elem_of_lookup. eauto. }
        rewrite (step_settle c i o k Hi Hk). destruct o; reflexivity.
      * simpl. rewrite Hi. destruct o; reflexivity.
Qed.



(** C2. A fetch started by the coordinator that fails leaves [data] as it
    was and [loading] false, and hands the error to the caller: both when
    the request of a reachable configuration is rejected while other events
    have happened since it was sent, and for [applyFilters]/[changePage]
    run from start to end against a failing server. *)
Theorem failed_fetch_keeps_data (c : Config) (i : nat) (e : JsError) :
  reachable c ->
  is_Some (inflight c !! i) ->
  let c' := step c (Settle i (Rejected e)) in
  data (state c') = data (state c)
  /\ loading (state c') = false
  /\ rejections c' = rejections c ++ [e]
  /\ requests c' = requests c
  /\ forall (a : UserAction) (s : CoordState) (log : list LogEntry),
       fetching a = true ->
       let out := complete (fun _ _ => Rejected e) (dispatch a) s log [] in
       data (final_state out) = data s
       /\ loading (final_state out) = false
       /\ completion out = Thrown e
       /\ length (issued out) = 1%nat.
Proof.
  intros Hreach [k Hi]. cbv zeta.
  assert (Hk : settles k).
  { pose proof (reachable_settles c Hreach) as Hinv.
    rewrite Forall_forall in Hinv. apply Hinv, list_elem_of_lookup. eauto. }
  rewrite (step_settle c i (Rejected e) k Hi Hk). simpl.
  repeat split.
  all: destruct a; try discriminate; reflexivity.
Qed.

Lemma failed_fetch_keeps_data_witness :
  let c := exec [User (DoApplyFilters ∅);
                 Settle 0 (Resolved (mkAxiosResponse firstOfThree 200));
                 User (DoPageChange 2)] initialConfig in
  let c' := step c (Settle 0 (Rejected (BadStatus 500))) in
  data (state c') = Some firstOfThree /\ loading (state c') = false.
Proof.
  cbv zeta.
  pose proof (failed_fetch_keeps_data
                (exec [User (DoApplyFilters ∅);
                       Settle 0 (Resolved (mkAxiosResponse firstOfThree 200));
                       User (DoPageChange 2)] initialConfig)
                0%nat (BadStatus 500)
                (ex_intro _ _ eq_refl)
                (ex_intro _ _ eq_refl)) as (Hd & Hl & _).
  split; [rewrite Hd; reflexivity | exact Hl].
Defined.

(** C5 (as the code has it). In any state the list view, rendered when
    no compound is selected, shows the [page] field of [data] when [data]
    is not null and that field is not 0, and shows 1 when the field is 0 or
    [data] is null.  After any sequence of events from the initial
    configuration, [data] is the most recent successfully fetched response
    (null when there is none), so the page shown follows that response in
    the same way. *)
Theorem shown_page_follows_last_response (hook : CoordState)
    (evs : list Event) :
  shown_page (App hook)
  = match selectedCompound hook with
    | Some _ => None
    | None => Some (page_to_show (data hook))
    end
  /\ let c := exec evs initialConfig in
     let last := lastSuccess evs initialConfig None in
     data (state c) = last
     /\ shown_page (App (state c))
        = match selectedCompound (state c) with
          | Some _ => None
          | None => Some (page_to_show last)
          end.
Proof.
  assert (Happ : forall h, shown_page (App h)
                           = match selectedCompound h with
                             | Some _ => None
                             | None => Some (page_to_show (data h))
                             end).
  { intros h. unfold App.
    destruct (selectedCompound h); simpl; [reflexivity |].
    destruct (data h); reflexivity. }
  split; [apply Happ |]. cbv zeta.
  pose proof (data_is_lastSuccess evs initialConfig (Forall_nil_2 _)) as Hd.
  simpl (data (state initialConfig)) in Hd.
  split; [exact Hd |].
  rewrite <- Hd. apply Happ.
Qed.

(** C5 fails as stated: with [data] holding a response whose [page] field
    is 0, the list view shows page 1; the coordinator reaches such a state
    as soon as the server answers the first fetch with that response. *)
Lemma shown_page_counterexample :
  let hook := mkCoord (Some emptyPage) false None [] ∅ 1 in
  let evs := [User (DoApplyFilters ∅);
              Settle 0 (Resolved (mkAxiosResponse emptyPage 200))] in
  state (exec evs initialConfig) = hook
  /\ lastSuccess evs initialConfig None = Some emptyPage
  /\ data hook = Some emptyPage
  /\ page emptyPage = 0
  /\ shown_page (App hook) = Some 1
  /\ shown_page (App hook) <> Some (page emptyPage).
Proof.
  cbv zeta. repeat split; try reflexivity.
  vm_compute. discriminate.
Qed.







(* ===================================================================== *)
(** ** Further properties of the fetch client *)
(* ===================================================================== *)

Lemma overridden_by_dom (f q : JsObject) :
  overridden_by f q -> dom q = dom f ∪ {["page"; "per_page"]}.
Proof.
  intros Hq. apply set_eq. intros key.
  rewrite elem_of_union, !elem_of_dom, (Hq key).
  unfold default_query.
  destruct (f !! key) as [v |] eqn:Hf.
  - split; [intros _; left; eauto | eauto].
  - rewrite elem_of_union, !elem_of_singleton.
    destruct (decide (key = "page")) as [-> | Hp].
    + split; [intros _; right; left; reflexivity | eauto].
    + destruct (decide (key = "per_page")) as [-> | Hpp].
      * split; [intros _; right; right; reflexivity | eauto].
      * split.
        -- intros [x Hx]. discriminate.
        -- intros [[x Hx] | [Hin | Hin]]; [discriminate | done | done].
Qed.

(** X1. Whatever the caller passes, the one request of [fetchCompounds]
    carries a [page] and a [per_page] parameter and every key of the
    caller's object, and no other key. *)
Theorem fetchCompounds_query_keys (base : string) (f : FilterParams)
    (net : string -> JsObject -> AxiosOutcome) (s : CoordState)
    (log : list LogEntry) :
  exists q : JsObject,
    issued (complete net (fetchCompounds_at base f) s log [])
    = [(base +:+ "/items", q)]
    /\ dom q = dom f ∪ {["page"; "per_page"]}
    /\ is_Some (q !! "page")
    /\ is_Some (q !! "per_page").
Proof.
  exists (spread (<["per_page" := VNum 50]> (<["page" := VNum 1]> ∅)) f).
  pose proof (spread_defaults_overridden f) as Hq.
  pose proof (overridden_by_dom _ _ Hq) as Hdom.
  rewrite fetchCompounds_at_complete.
  split; [destruct (net _ _); reflexivity |].
  split; [exact Hdom |].
  split; apply elem_of_dom; rewrite Hdom, !elem_of_union, !elem_of_singleton;
    right; [left | right]; reflexivity.
Qed.

(** X2. When the caller's object has both a [page] and a [per_page] key,
    nothing of the defaults is left: the query sent is the caller's object
    itself. *)
Theorem fetchCompounds_full_override (base : string) (f : FilterParams)
    (net : string -> JsObject -> AxiosOutcome) (s : CoordState)
    (log : list LogEntry) :
  is_Some (f !! "page") ->
  is_Some (f !! "per_page") ->
  issued (complete net (fetchCompounds_at base f) s log [])
  = [(base +:+ "/items", f)].
Proof.
  intros [vp Hp] [vpp Hpp].
  rewrite fetchCompounds_at_complete.
  assert (Heq : spread (<["per_page" := VNum 50]> (<["page" := VNum 1]> ∅)) f
                = f).
  { apply map_eq. intros key.
    rewrite (spread_defaults_overridden f key).
    destruct (f !! key) as [v |] eqn:Hf; [reflexivity |].
    unfold default_query.
    destruct (decide (key = "page")) as [-> | _]; [congruence |].
    destruct (decide (key = "per_page")) as [-> | _]; [congruence |].
    reflexivity. }
  rewrite Heq. destruct (net _ _); reflexivity.
Qed.

Lemma fetchCompounds_full_override_witness :
  issued (complete (fun _ _ => Rejected (NetworkError "down"))
            (Api.fetchCompounds
               (<["page" := VNum 3]> (<["per_page" := VNum 10]> ∅)))
            UseCompounds.initialState [] [])
  = [(Api.API_BASE_URL +:+ "/items",
      <["page" := VNum 3]> (<["per_page" := VNum 10]> ∅))].
Proof.
  apply (fetchCompounds_full_override Api.API_BASE_URL
           (<["page" := VNum 3]> (<["per_page" := VNum 10]> ∅))).
  - exists (VNum 3). reflexivity.
  - exists (VNum 10). reflexivity.
Defined.

(** X3. Sending the query of a request again as the argument of
    [fetchCompounds] sends the same query: the defaults are applied once
    and for all. *)
Theorem fetchCompounds_query_stable (base : string) (f : FilterParams)
    (net : string -> JsObject -> AxiosOutcome) (s : CoordState)
    (log : list LogEntry) :
  exists q : JsObject,
    issued (complete net (fetchCompounds_at base f) s log [])
    = [(base +:+ "/items", q)]
    /\ issued (complete net (fetchCompounds_at base q) s log [])
       = [(base +:+ "/items", q)].
Proof.
  exists (spread (<["per_page" := VNum 50]> (<["page" := VNum 1]> ∅)) f).
  rewrite !fetchCompounds_at_complete.
  split; [destruct (net _ _); reflexivity |].
  assert (Heq : spread (<["per_page" := VNum 50]> (<["page" := VNum 1]> ∅))
                  (spread (<["per_page" := VNum 50]> (<["page" := VNum 1]> ∅)) f)
                = spread (<["per_page" := VNum 50]> (<["page" := VNum 1]> ∅)) f).
  { apply map_eq. intros key.
    rewrite (spread_defaults_overridden _ key).
    rewrite (spread_defaults_overridden f key).
    destruct (f !! key); [reflexivity |].
    destruct (default_query key); reflexivity. }
  rewrite Heq. destruct (net _ _); reflexivity.
Qed.

(** X9. The two copies of [api.ts] are interchangeable up to the address:
    against a server whose answer does not depend on the URL they send the
    same query, log the same and complete in the same way. *)
Theorem fetchCompounds_copies_agree (f : FilterParams)
    (net : string -> JsObject -> AxiosOutcome) (s : CoordState)
    (log : list LogEntry) :
  (forall url url' q, net url q = net url' q) ->
  let out := complete net (Api.fetchCompounds f) s log [] in
  let out' := complete net (ApiCopy.fetchCompounds f) s log [] in
  completion out = completion out'
  /\ final_console out = final_console out'
  /\ final_state out = final_state out'
  /\ map snd (issued out) = map snd (issued out').
Proof.
  intros Hnet. cbv zeta. unfold Api.fetchCompounds, ApiCopy.fetchCompounds.
  rewrite !fetchCompounds_at_complete.
  rewrite (Hnet (Api.API_BASE_URL +:+ "/items")
                (ApiCopy.API_BASE_URL +:+ "/items")).
  destruct (net _ _); repeat split.
Qed.

Lemma fetchCompounds_copies_agree_witness :
  completion (complete (fun _ _ => Resolved (mkAxiosResponse firstOfThree 200))
                (Api.fetchCompounds ∅) UseCompounds.initialState [] [])
  = completion (complete (fun _ _ => Resolved (mkAxiosResponse firstOfThree 200))
                  (ApiCopy.fetchCompounds ∅) UseCompounds.initialState [] []).
Proof.
  destruct (fetchCompounds_copies_agree ∅
              (fun _ _ => Resolved (mkAxiosResponse firstOfThree 200))
              UseCompounds.initialState [] (fun _ _ _ => eq_refl))
    as [Hc _].
  exact Hc.
Defined.

(* ===================================================================== *)
(** ** Further properties of the view *)
(* ===================================================================== *)

Section FindIndexMore.

Context {A : Type} (p : A -> bool).

(** An element satisfying [p] at position [n] bounds the result. *)
Lemma findIndex_le (l : list A) (n : nat) (x : A) :
  l !! n = Some x -> p x = true -> 0 <= findIndex p l <= Z.of_nat n.
Proof.
  intros Hn Hx.
  destruct (findIndex_spec p l) as [[_ Hall] | (m & y & -> & _ & _ & Hbefore)].
  - rewrite Forall_forall in Hall.
    assert (Hin : x ∈ l) by (apply list_elem_of_lookup; eauto).
    specialize (Hall x Hin). simpl in Hall. congruence.
  - split; [lia |].
    destruct (decide (n < m)%nat) as [Hlt | Hge]; [| lia].
    specialize (Hbefore n x Hlt Hn). congruence.
Qed.

(** A match in [l] is still the first match after elements are appended. *)
Lemma findIndex_app_found (l extra : list A) :
  0 <= findIndex p l -> findIndex p (l ++ extra) = findIndex p l.
Proof.
  intros Hfound.
  destruct (findIndex_spec p l) as [[Hi _] | (n & x & Hi & Hn & Hx & Hbefore)].
  - lia.
  - rewrite Hi. unfold findIndex.
    rewrite (findIndex_from_first p (l ++ extra) 0 n x).
    + lia.
    + rewrite lookup_app_l; [exact Hn | eapply lookup_lt_Some; exact Hn].
    + exact Hx.
    + intros m y Hm Hy. apply (Hbefore m y Hm).
      rewrite lookup_app_l in Hy; [exact Hy |].
      apply lookup_lt_Some in Hn. lia.
Qed.

End FindIndexMore.

(** X4. In the list view with a response in [data], the table gets the
    response's items as they are (also when there are none) and its
    [total_pages] and [total_items] unchanged, the [|| 0] fallbacks never
    altering a value; only the page number is replaced, by 1, when it is
    0.  [loading] is handed on as it is. *)
Theorem App_list_view_with_data (hook : CoordState) (r : ApiResponse) :
  selectedCompound hook = None ->
  data hook = Some r ->
  exists sidebar table,
    App hook = ListView sidebar table
    /\ table_data table = items r
    /\ totalPages table = total_pages r
    /\ totalItems table = total_items r
    /\ table_loading table = loading hook
    /\ (page r <> 0 -> currentPage table = page r)
    /\ (page r = 0 -> currentPage table = 1).
Proof.
  intros Hsel Hdata. unfold App. rewrite Hsel, Hdata. simpl.
  do 2 eexists. split; [reflexivity |]. simpl. unfold or_num.
  repeat split.
  - destruct (total_pages r =? 0) eqn:H0; [| reflexivity].
    apply Z.eqb_eq in H0. congruence.
  - destruct (total_items r =? 0) eqn:H0; [| reflexivity].
    apply Z.eqb_eq in H0. congruence.
  - intros Hp. apply Z.eqb_neq in Hp. rewrite Hp. reflexivity.
  - intros ->. reflexivity.
Qed.

Lemma App_list_view_with_data_witness :
  exists sidebar table,
    App (mkCoord (Some emptyPage) true None [] ∅ 1) = ListView sidebar table
    /\ table_data table = []
    /\ totalPages table = 0
    /\ totalItems table = 0
    /\ table_loading table = true.
Proof.
  destruct (App_list_view_with_data
              (mkCoord (Some emptyPage) true None [] ∅ 1) emptyPage
              eq_refl eq_refl)
    as (sidebar & table & Happ & Hd & Hp & Hi & Hl & _).
  exists sidebar, table.
  split; [exact Happ |]. split; [exact Hd |]. split; [exact Hp |].
  split; [exact Hi | exact Hl].
Defined.

(** X5. Whenever the detail page is rendered, the index it is given lies
    between [-1] and [totalCount - 1], [totalCount] is the length of
    [allFilteredCompounds], and with an empty list the index is [-1]. *)
Theorem App_detail_index_in_range (hook : CoordState)
    (props : DetailPageProps) :
  App hook = DetailPage props ->
  -1 <= currentIndex props < totalCount props
  /\ totalCount props = Z.of_nat (length (allFilteredCompounds hook))
  /\ (allFilteredCompounds hook = [] -> currentIndex props = -1).
Proof.
  unfold App. destruct (selectedCompound hook) as [selected |]; simpl;
    [| discriminate].
  intros H. injection H as <-. simpl.
  split; [apply findIndex_range |].
  split; [reflexivity |].
  intros ->. reflexivity.
Qed.

Lemma App_detail_index_in_range_witness :
  exists props,
    App (exampleState compoundC) = DetailPage props
    /\ -1 <= currentIndex props < totalCount props.
Proof.
  eexists. split; [reflexivity |].
  apply (App_detail_index_in_range (exampleState compoundC) _ eq_refl).
Defined.

(** X6. When the selected compound's [mol_idx] occurs in
    [allFilteredCompounds] at position [n], the detail page gets an index
    between 0 and [n] (never [-1]) at which an element with that [mol_idx]
    sits; when the [mol_idx] values of the list are unique the index is
    [n] itself. *)
Theorem App_detail_index_of_listed (hook : CoordState) (selected item : Compound)
    (n : nat) :
  selectedCompound hook = Some selected ->
  allFilteredCompounds hook !! n = Some item ->
  mol_idx item = mol_idx selected ->
  exists props,
    App hook = DetailPage props
    /\ 0 <= currentIndex props <= Z.of_nat n
    /\ (exists found,
          allFilteredCompounds hook !! Z.to_nat (currentIndex props)
          = Some found
          /\ mol_idx found = mol_idx selected)
    /\ (NoDup (map mol_idx (allFilteredCompounds hook)) ->
        currentIndex props = Z.of_nat n).
Proof.
  intros Hsel Hn Hid. unfold App. rewrite Hsel. simpl.
  eexists. split; [reflexivity |]. simpl.
  assert (Hp : same_mol_idx selected item = true).
  { unfold same_mol_idx. apply Z.eqb_eq. exact Hid. }
  pose proof (findIndex_le (same_mol_idx selected) _ n item Hn Hp) as Hle.
  split; [exact Hle |]. split.
  - destruct (findIndex_spec (same_mol_idx selected) (allFilteredCompounds hook))
      as [[Hi _] | (m & y & Hi & Hm & Hy & _)]; [lia |].
    exists y. rewrite Hi, Nat2Z.id. split; [exact Hm |].
    unfold same_mol_idx in Hy. apply Z.eqb_eq in Hy. exact Hy.
  - intros Hnodup.
    destruct (findIndex_spec (same_mol_idx selected) (allFilteredCompounds hook))
      as [[Hi _] | (m & y & Hi & Hm & Hy & _)]; [lia |].
    rewrite Hi. f_equal.
    apply (NoDup_lookup (map mol_idx (allFilteredCompounds hook)) m n
             (mol_idx selected) Hnodup).
    + rewrite list_lookup_fmap, Hm. simpl.
      unfold same_mol_idx in Hy. apply Z.eqb_eq in Hy. congruence.
    + rewrite list_lookup_fmap, Hn. simpl. congruence.
Qed.

Lemma App_detail_index_of_listed_witness :
  exists props,
    App (exampleState compoundC) = DetailPage props
    /\ currentIndex props = 2.
Proof.
  destruct (App_detail_index_of_listed (exampleState compoundC) compoundC
              compoundC 2 eq_refl eq_refl eq_refl)
    as (props & Happ & _ & _ & Hexact).
  exists props. split; [exact Happ |].
  apply Hexact. apply NoDup_ListNoDup. simpl.
  repeat constructor; simpl; intuition discriminate.
Defined.

(** X7. While a compound is selected, what [App] renders is determined by
    [selectedCompound] and [allFilteredCompounds] alone: [data] and
    [loading] play no part.  While none is selected, it is determined by
    [data] and [loading] alone: [allFilteredCompounds] plays no part. *)
Theorem App_view_independence (h1 h2 : CoordState) :
  selectedCompound h1 = selectedCompound h2 ->
  (selectedCompound h1 <> None ->
   allFilteredCompounds h1 = allFilteredCompounds h2 ->
   App h1 = App h2)
  /\ (selectedCompound h1 = None ->
      data h1 = data h2 ->
      loading h1 = loading h2 ->
      App h1 = App h2).
Proof.
  intros Hsel. unfold App. rewrite <- Hsel.
  destruct (selectedCompound h1) as [selected |]; simpl.
  - split; [| discriminate]. intros _ ->. reflexivity.
  - split; [congruence |]. intros _ -> ->. reflexivity.
Qed.

Lemma App_view_independence_witness :
  App (set_loading true (set_data (Some firstOfThree) (exampleState compoundB)))
  = App (exampleState compoundB).
Proof.
  destruct (App_view_independence
              (set_loading true
                 (set_data (Some firstOfThree) (exampleState compoundB)))
              (exampleState compoundB) eq_refl) as [Hdetail _].
  apply Hdetail; [discriminate | reflexivity].
Defined.

(** X8. Appending compounds to [allFilteredCompounds] while the selected
    one is found in it keeps the index given to the detail page and adds
    the number of new compounds to [totalCount]. *)
Theorem App_detail_index_stable_under_append (hook : CoordState)
    (extra : list Compound) (props : DetailPageProps) :
  App hook = DetailPage props ->
  0 <= currentIndex props ->
  exists props',
    App (set_allFilteredCompounds (allFilteredCompounds hook ++ extra) hook)
    = DetailPage props'
    /\ currentIndex props' = currentIndex props
    /\ compound props' = compound props
    /\ totalCount props' = totalCount props + Z.of_nat (length extra).
Proof.
  unfold App. simpl.
  destruct (selectedCompound hook) as [selected |]; simpl; [| discriminate].
  intros H. injection H as <-. simpl. intros Hfound.
  eexists. split; [reflexivity |]. simpl.
  split; [apply findIndex_app_found; exact Hfound |].
  split; [reflexivity |].
  rewrite length_app. lia.
Qed.

Lemma App_detail_index_stable_under_append_witness :
  exists props',
    App (set_allFilteredCompounds
           (allFilteredCompounds (exampleState compoundB) ++ [compoundB])
           (exampleState compoundB))
    = DetailPage props'
    /\ currentIndex props' = 1.
Proof.
  destruct (App_detail_index_stable_under_append (exampleState compoundB)
              [compoundB] _ eq_refl ltac:(vm_compute; discriminate))
    as (props' & Happ & Hi & _).
  exists props'. split; [exact Happ | exact Hi].
Defined.
